(** * covid19_pdf.js : assembly of the COVID-19 PDF report

    A shallow embedding of [src/functions/covid19_pdf.js].  The module exports
    one asynchronous function, [pdfGenerateFile], which fetches a statistics
    record, derives two display tables, assembles a pdfmake document
    definition, appends the stored comments and hands the result to the
    renderer.  The collaborators that live outside the file (HTTP client,
    country-name dictionary, comment store, clock, date formatter, renderer
    and file system) are fields of an explicit environment; everything the
    file computes itself is a Rocq function. *)

From Stdlib Require Import List String Ascii ZArith Bool Lia PeanoNat.
From Stdlib Require Import DecimalString.
Import ListNotations.
Local Open Scope string_scope.

(** ** JavaScript values *)

Module Js.

(** A JavaScript number, as far as this file meets them: an integer value
    or NaN. *)
Inductive Number :=
| Fin (z : Z)
| NaN.

(** The primitive values that can be handed in as [image_file]. *)
Inductive Value :=
| Undefined
| Null
| Boolean (b : bool)
| Num (n : Number)
| Str (s : string).

(** A field of the JSON record the statistics service answers with: absent
    ([result.f] evaluates to [undefined]), [null], or a number. *)
Inductive Field :=
| Absent
| IsNull
| Value_ (z : Z).

(** [Number(v)] on a record field: [undefined] becomes NaN, [null] becomes
    0, a number is itself. *)
Definition ToNumber (f : Field) : Number :=
  match f with
  | Absent => NaN
  | IsNull => Fin 0
  | Value_ z => Fin z
  end.

(** [v == ""]: abstract equality against the empty string.  A string is
    compared as a string; a number is compared with [ToNumber("")], which is
    0; a boolean is first turned into 0 or 1; [null] and [undefined] are
    loosely equal only to each other. *)
Definition loose_eq_empty (v : Value) : bool :=
  match v with
  | Undefined => false
  | Null => false
  | Boolean b => negb b
  | Num (Fin z) => Z.eqb z 0
  | Num NaN => false
  | Str s => String.eqb s ""
  end.

(** [v === s] for a string literal [s]: same type and same characters. *)
Definition strict_eq_str (v : Value) (s : string) : bool :=
  match v with
  | Str t => String.eqb t s
  | _ => false
  end.

End Js.

(** ** Number.prototype.toLocaleString *)

Module Locale.

(** Walks the digits from the least significant one and puts a separator in
    front of every fourth, seventh, ... digit; [k] counts the digits already
    emitted in the current group. *)
Fixpoint group_from (k : nat) (ds : list ascii) : list ascii :=
  match ds with
  | [] => []
  | d :: rest =>
      if Nat.eqb k 3
      then ","%char :: d :: group_from 1 rest
      else d :: group_from (S k) rest
  end.

Definition digits_of (n : N) : list ascii :=
  list_ascii_of_string (NilZero.string_of_uint (N.to_uint n)).

Definition group_digits (ds : list ascii) : list ascii :=
  rev (group_from 0 (rev ds)).

Definition grouped (n : N) : string :=
  string_of_list_ascii (group_digits (digits_of n)).

(** Modelled from the spec: [Number.prototype.toLocaleString] is a built-in
    of the JavaScript runtime, called without arguments at every numeric
    cell.  The spec fixes its result as the decimal digits with grouping
    (thousands) separators, [1234567] giving ["1,234,567"]; that is the
    runtime's en-US rendering, which is the one modelled.  NaN is rendered
    as ["NaN"]. *)
Definition toLocaleString (x : Js.Number) : string :=
  match x with
  | Js.NaN => "NaN"
  | Js.Fin z =>
      if Z.ltb z 0
      then "-" ++ grouped (Z.to_N (Z.opp z))
      else grouped (Z.to_N z)
  end.

End Locale.

(** ** The pdfmake document definition *)

(** A table cell: a bare string, or [{text, style}]. *)
Inductive Cell :=
| Plain (s : string)
| Styled (text style : string).

(** An entry of [docDefinition.content].  The source builds four shapes of
    node: [{text, style}] with an optional [id]; [{style, table: {heights,
    body}}]; [{image, width, height}]; and the bare string that [info_table]
    and [status_table] are initialised with. *)
Inductive Block :=
| Text (text style : string) (id : option string)
| TableBlock (style : string) (heights : Z) (body : list (list Cell))
| Image (image : Js.Value) (width height : Z)
| Bare (s : string).

Record Style := {
  font : option string;
  fontSize : option Z;
  alignment : option string;
  margin : option (list Z);
  fillColor : option string
}.

Record DocDefinition := {
  content : list Block;
  pageBreakBefore : Block -> bool;
  styles : list (string * Style);
  defaultStyle : Style
}.

(** [currentNode.id]: only a [{text, style, id}] node carries the property;
    on every other node the lookup gives [undefined]. *)
Definition node_id (currentNode : Block) : Js.Value :=
  match currentNode with
  | Text _ _ (Some i) => Js.Str i
  | _ => Js.Undefined
  end.

Definition is_table (b : Block) : bool :=
  match b with
  | TableBlock _ _ _ => true
  | _ => false
  end.

(** ** The collaborators *)

(** The record the statistics service answers with. *)
Record Stats := {
  population : Js.Field;
  active : Js.Field;
  critical : Js.Field;
  recovered : Js.Field;
  cases : Js.Field;
  deaths : Js.Field;
  tests : Js.Field
}.

(** The local-time components of a JavaScript [Date]; [month] counts from 0
    as [getMonth] does. *)
Record Date := {
  fullYear : nat;
  month : nat;
  date : nat;
  hours : nat;
  minutes : nat
}.

(** A stored comment: [{datetime, comment}]. *)
Record Comment := {
  datetime : Date;
  comment : string
}.

(** A thrown value: [ex.name] and [ex.message]. *)
Record Exn := {
  name : string;
  message : string
}.

(** Everything [pdfGenerateFile] reads from outside the file.  A [None] from
    [httpGet], [translateCountryName] or [commentGet] is the [null] those
    functions answer with; a [Some ex] from [createPdfKitDocument] or
    [finished] is an exception raised inside the [try] block, while rendering
    or while the write stream is flushed.  [global_output] says whether the
    global object has a property named [output]. *)
Record Env := {
  BASE_URL : string;
  LOCAL_FOLDER : string;
  httpGet : string -> option Stats;
  translateCountryName : string -> option string;
  commentGet : string -> option (list Comment);
  currentTimeStamp : string;
  toFormat : Date -> string -> string;
  createPdfKitDocument : DocDefinition -> option Exn;
  finished : string -> option Exn;
  global_output : bool
}.

(** ** Observable effects *)

Inductive Event :=
| HttpGet (url : string)
| Translate (country : string)
| Clock
| CommentGet (country : string)
| CreatePdf (doc : DocDefinition)
| CreateWriteStream (path : string)
| ConsoleLog (args : list string)
| ConsoleError (line : string).

(** How the promise returned by the [async] function settles: resolved with
    a file name or [null], or rejected with an exception. *)
Inductive Outcome :=
| Resolved (v : option string)
| Rejected (ex : Exn).

(** A computation that logs the calls it makes. *)
Definition Eff (A : Type) : Type := (list Event * A)%type.

Definition ret {A} (a : A) : Eff A := ([], a).

Definition bind {A B} (m : Eff A) (k : A -> Eff B) : Eff B :=
  let (t1, a) := m in
  let (t2, b) := k a in
  ((t1 ++ t2)%list, b).

Definition call {A} (e : Event) (answer : A) : Eff A := ([e], answer).

Notation "x <- m ;; k" := (bind m (fun x => k))
  (at level 61, m at next level, right associativity).

Definition trace {A} (m : Eff A) : list Event := fst m.
Definition result {A} (m : Eff A) : A := snd m.

(** ** pdfGenerateFile *)

(** Lines 61-62: the per-country address, replaced by the aggregate one when
    [country == 'all']. *)
Definition resolve_url (env : Env) (country : string) : string :=
  let url := BASE_URL env ++ "countries/" ++ country in
  if String.eqb country "all" then BASE_URL env ++ "all" else url.

(** The cell text of one numeric field: [Number(result.f).toLocaleString()]. *)
Definition numeric_cell (f : Js.Field) : string :=
  Locale.toLocaleString (Js.ToNumber f).

(** Lines 70-79. *)
Definition info_table (translated population : string) : Block :=
  TableBlock "tableBody" 20
    [ [ Styled "国名" "tableHeader"; Styled "人口" "tableHeader" ];
      [ Plain translated; Plain population ] ].

(** Lines 81-100. *)
Definition status_table (r : Stats) : Block :=
  let active_    := numeric_cell (active r) in
  let critical_  := numeric_cell (critical r) in
  let recovered_ := numeric_cell (recovered r) in
  let cases_     := numeric_cell (cases r) in
  let deaths_    := numeric_cell (deaths r) in
  let tests_     := numeric_cell (tests r) in
  TableBlock "tableBody" 20
    [ [ Styled "感染者数" "tableHeader"; Plain active_ ];
      [ Styled "重病者数" "tableHeader"; Plain critical_ ];
      [ Styled "退院・療養終了" "tableHeader"; Plain recovered_ ];
      [ Styled "感染者累計" "tableHeader"; Plain cases_ ];
      [ Styled "死亡者累計" "tableHeader"; Plain deaths_ ];
      [ Styled "検査数" "tableHeader"; Plain tests_ ] ].

(** Lines 59-60 and 64-101: both tables start as the empty string and are
    replaced only when the fetch answered. *)
Definition derive_tables (env : Env) (country : string) (res : option Stats)
  : Eff (Block * Block) :=
  let info := Bare "" in
  let status := Bare "" in
  match res with
  | Some r =>
      t <- call (Translate country) (translateCountryName env country) ;;
      let translated := match t with None => country | Some n => n end in
      let population_ := numeric_cell (population r) in
      ret (info_table translated population_, status_table r)
  | None => ret (info, status)
  end.

(** Lines 108-123. *)
Definition base_content (datetime_ : string) (info status : Block)
    (image_file : Js.Value) : list Block :=
  [ Text "COVID-19 レポート" "title" None;
    Text ("作成時刻: " ++ datetime_) "datetime" None;
    info;
    Text "感染状況：" "sub_title" None;
    status;
    Text "感染履歴グラフ：" "sub_title" None;
    Image image_file 450 300 ].

(** Lines 125-131. *)
Definition page_break_rule (currentNode : Block) : bool :=
  if Js.strict_eq_str (node_id currentNode) "comment" then true else false.

(** Lines 133-161. *)
Definition style_table : list (string * Style) :=
  [ ("title",
      {| font := Some "IPAexGothic"; fontSize := Some 24%Z;
         alignment := Some "center"; margin := Some [0; 0; 0; 20]%Z;
         fillColor := None |});
    ("sub_title",
      {| font := Some "IPAexGothic"; fontSize := Some 20%Z;
         alignment := None; margin := Some [0; 10; 0; 10]%Z;
         fillColor := None |});
    ("datetime",
      {| font := Some "IPAexGothic"; fontSize := Some 16%Z;
         alignment := Some "right"; margin := Some [0; 5; 0; 5]%Z;
         fillColor := None |});
    ("tableBody",
      {| font := None; fontSize := None; alignment := None;
         margin := Some [10; 5; 0; 15]%Z; fillColor := None |});
    ("tableHeader",
      {| font := None; fontSize := None; alignment := None; margin := None;
         fillColor := Some "#eeeeff" |}) ].

Definition default_style : Style :=
  {| font := Some "IPAexGothic"; fontSize := Some 14%Z; alignment := None;
     margin := None; fillColor := None |}.

(** Lines 106-162. *)
Definition docDefinition (datetime_ : string) (info status : Block)
    (image_file : Js.Value) : DocDefinition :=
  {| content := base_content datetime_ info status image_file;
     pageBreakBefore := page_break_rule;
     styles := style_table;
     defaultStyle := default_style |}.

Definition comment_header : list Cell :=
  [ Styled "日時" "tableHeader"; Styled "コメント" "tableHeader" ].

(** Lines 177-181: the loop pushes one row per comment onto the body. *)
Definition push_comment_rows (env : Env) (comments : list Comment)
    (body : list (list Cell)) : list (list Cell) :=
  fold_left
    (fun body c =>
       let dt := toFormat env (datetime c) "YYYY-MM-DD HH24:MI" in
       let comment_ := comment c in
       (body ++ [ [ Plain dt; Plain comment_ ] ])%list)
    comments body.

Definition comment_heading : Block :=
  Text "コメント：" "sub_title" (Some "comment").

Definition push {A} (l : list A) (x : A) : list A := (l ++ [x])%list.

(** Lines 166-187: with [comments != null && comments.length > 0] the
    heading and the table are pushed onto the content; otherwise the document
    is left as it is. *)
Definition append_comments (env : Env) (comments : option (list Comment))
    (doc : DocDefinition) : DocDefinition :=
  match comments with
  | None => doc
  | Some cs =>
      if Nat.ltb 0 (List.length cs) then
        let comment_table :=
          TableBlock "tableBody" 20 (push_comment_rows env cs [comment_header]) in
        {| content := push (push (content doc) comment_heading) comment_table;
           pageBreakBefore := pageBreakBefore doc;
           styles := styles doc;
           defaultStyle := defaultStyle doc |}
      else doc
  end.

Definition output_path (env : Env) (country timestamp : string) : string :=
  LOCAL_FOLDER env ++ "/Report-" ++ country ++ "-" ++ timestamp ++ ".pdf".

(** Lines 59-187: everything between the guard and the [try] block; the
    answer is the finished document and the name of the file to write. *)
Definition assemble (env : Env) (datetime_ country : string)
    (image_file : Js.Value) : Eff (DocDefinition * string) :=
  let url := resolve_url env country in
  res <- call (HttpGet url) (httpGet env url) ;;
  tables <- derive_tables env country res ;;
  timestamp <- call Clock (currentTimeStamp env) ;;
  let output_file := output_path env country timestamp in
  let doc := docDefinition datetime_ (fst tables) (snd tables) image_file in
  comments <- call (CommentGet country) (commentGet env country) ;;
  ret (append_comments env comments doc, output_file).

(** Lines 191-197, the body of the [try]: [Some ex] when a statement of it
    raised [ex]. *)
Definition try_body (env : Env) (doc : DocDefinition) (output_file : string)
  : Eff (option Exn) :=
  thrown <- call (CreatePdf doc) (createPdfKitDocument env doc) ;;
  match thrown with
  | Some ex => ret (Some ex)
  | None =>
      rejected <- call (CreateWriteStream output_file) (finished env output_file) ;;
      match rejected with
      | Some ex => ret (Some ex)
      | None =>
          _ <- call (ConsoleLog ["[INFO] "; output_file; "has been saved."]) tt ;;
          ret None
      end
  end.

Definition ReferenceError_output : Exn :=
  {| name := "ReferenceError"; message := "output is not defined" |}.

(** Lines 198-201, the handler.  After the log line it assigns to [output],
    a name the file never declares.  The file is in strict mode (line 1), so
    the assignment raises a ReferenceError unless the global object happens
    to have that property; [output_file] is left as it was either way. *)
Definition catch_handler (env : Env) (ex : Exn) : Eff (option Exn) :=
  _ <- call (ConsoleError (name ex ++ ": " ++ message ex)) tt ;;
  if global_output env then ret None else ret (Some ReferenceError_output).

(** Lines 190-203. *)
Definition write_out (env : Env) (doc : DocDefinition) (output_file : string)
  : Eff Outcome :=
  thrown <- try_body env doc output_file ;;
  escaped <- match thrown with
             | Some ex => catch_handler env ex
             | None => ret None
             end ;;
  match escaped with
  | Some ex => ret (Rejected ex)
  | None => ret (Resolved (Some output_file))
  end.

(** Lines 55-204. *)
Definition pdfGenerateFile (env : Env) (datetime_ country : string)
    (image_file : Js.Value) : Eff Outcome :=
  let output_file : option string := None in
  if Js.loose_eq_empty image_file then ret (Resolved output_file)
  else
    assembled <- assemble env datetime_ country image_file ;;
    write_out env (fst assembled) (snd assembled).

(** The document handed to the renderer and the file it is written to. *)
Definition document (env : Env) (datetime_ country : string)
    (image_file : Js.Value) : DocDefinition :=
  fst (result (assemble env datetime_ country image_file)).

Definition output_file_of (env : Env) (country : string) : string :=
  output_path env country (currentTimeStamp env).

(** ** A sample environment *)

Module Sample.

Definition two_digits (n : nat) : string :=
  let s := NilZero.string_of_uint (Nat.to_uint n) in
  if Nat.ltb n 10 then "0" ++ s else s.

(** The date-utils rendering of the one pattern the file asks for. *)
Definition format_date (d : Date) (pattern : string) : string :=
  if String.eqb pattern "YYYY-MM-DD HH24:MI"
  then NilZero.string_of_uint (Nat.to_uint (fullYear d)) ++ "-"
       ++ two_digits (S (month d)) ++ "-" ++ two_digits (date d) ++ " "
       ++ two_digits (hours d) ++ ":" ++ two_digits (minutes d)
  else pattern.

Definition world : Stats :=
  {| population := Js.Value_ 7800000000; active := Js.Value_ 1000;
     critical := Js.Value_ 50; recovered := Js.Value_ 900;
     cases := Js.Value_ 2000; deaths := Js.Value_ 30;
     tests := Js.Value_ 500000 |}.

Definition japan : Stats :=
  {| population := Js.Value_ 1234567; active := Js.Value_ 12345;
     critical := Js.IsNull; recovered := Js.Value_ 400000;
     cases := Js.Value_ 450000; deaths := Js.Value_ 8000;
     tests := Js.Absent |}.

Definition notes : list Comment :=
  [ {| datetime := {| fullYear := 2021; month := 2; date := 5; hours := 14;
                      minutes := 7 |};
       comment := "State of emergency extended" |};
    {| datetime := {| fullYear := 2021; month := 10; date := 21; hours := 9;
                      minutes := 30 |};
       comment := "<b>Booster</b> roll-out started" |} ].

Definition base : string := "https://disease.sh/v3/covid-19".

(** [render_error] and [write_error] choose what the renderer and the write
    stream raise, if anything. *)
Definition env (render_error write_error : option Exn) : Env :=
  {| BASE_URL := base ++ "/";
     LOCAL_FOLDER := "./output";
     httpGet := fun url =>
       if String.eqb url "https://disease.sh/v3/covid-19/all" then Some world
       else if String.eqb url "https://disease.sh/v3/covid-19/countries/Japan"
       then Some japan else None;
     translateCountryName := fun c =>
       if String.eqb c "Japan" then Some "日本" else None;
     commentGet := fun c =>
       if String.eqb c "Japan" then Some notes
       else if String.eqb c "all" then Some [] else None;
     currentTimeStamp := "20210305140700";
     toFormat := format_date;
     createPdfKitDocument := fun _ => render_error;
     finished := fun _ => write_error;
     global_output := false |}.

Definition ok : Env := env None None.

Definition ENOENT : Exn :=
  {| name := "Error";
     message := "ENOENT: no such file or directory, open './output/Report-all-20210305140700.pdf'" |}.

Definition image : Js.Value := Js.Str "./output/chart.png".

End Sample.

(** ** Views of a run used in the statements *)

(** The tables the document is built from, read off the fetch. *)
Definition tables_for (env : Env) (country : string) : Block * Block :=
  result (derive_tables env country (httpGet env (resolve_url env country))).

(** The name shown in the identity table: the translation, or the raw
    identifier when the dictionary has none. *)
Definition translated_name (env : Env) (country : string) : string :=
  match translateCountryName env country with
  | None => country
  | Some n => n
  end.

(** The seven entries the content starts with (lines 108-123), with the
    tables the fetch gave. *)
Definition base_blocks (env : Env) (datetime_ country : string)
    (image_file : Js.Value) : list Block :=
  base_content datetime_ (fst (tables_for env country))
    (snd (tables_for env country)) image_file.

Definition comment_row (env : Env) (c : Comment) : list Cell :=
  [ Plain (toFormat env (datetime c) "YYYY-MM-DD HH24:MI"); Plain (comment c) ].

Definition comment_table (env : Env) (cs : list Comment) : Block :=
  TableBlock "tableBody" 20 (comment_header :: map (comment_row env) cs).

(** A table with [rows] rows of two cells each. *)
Definition fully_built (b : Block) (rows : nat) : Prop :=
  exists style h body,
    b = TableBlock style h body
    /\ List.length body = rows
    /\ Forall (fun row => List.length row = 2) body.

(** Characters of a rendered number. *)
Definition is_separator (c : ascii) : bool := Ascii.eqb c ","%char.

Definition is_digit (c : ascii) : bool :=
  (Nat.leb 48 (nat_of_ascii c) && Nat.leb (nat_of_ascii c) 57)%bool.

Definition strip_separators (s : list ascii) : list ascii :=
  filter (fun c => negb (is_separator c)) s.

(** A cell text stands for an absent value when no number is rendered that
    way. *)
Definition renders_absence (cell : string) : Prop :=
  forall z, cell <> numeric_cell (Js.Value_ z).

(** ** Further views: fonts, styles, kinds of call *)

(** Lines 26-31: the font registry the printer is created with; a family
    name with the files of its normal and bold faces. *)
Definition fonts : list (string * (string * string)) :=
  [ ("IPAexGothic", ("./fonts/ipaexg.ttf", "./fonts/ipaexg.ttf")) ].

(** The style labels a cell and a content entry refer to. *)
Definition cell_styles (c : Cell) : list string :=
  match c with
  | Plain _ => []
  | Styled _ style => [style]
  end.

Definition block_styles (b : Block) : list string :=
  match b with
  | Text _ style _ => [style]
  | TableBlock style _ body => style :: flat_map (flat_map cell_styles) body
  | Image _ _ _ => []
  | Bare _ => []
  end.

(** What escapes from the body of the [try], if anything: the renderer's
    exception, or else the one the write stream ends with. *)
Definition raised_in_try (env : Env) (doc : DocDefinition) (path : string)
  : option Exn :=
  match createPdfKitDocument env doc with
  | Some ex => Some ex
  | None => finished env path
  end.

(** Which collaborator an event is a call of. *)
Inductive Kind :=
| KHttpGet
| KTranslate
| KClock
| KCommentGet
| KCreatePdf
| KCreateWriteStream
| KConsoleLog
| KConsoleError.

Definition kind (e : Event) : Kind :=
  match e with
  | HttpGet _ => KHttpGet
  | Translate _ => KTranslate
  | Clock => KClock
  | CommentGet _ => KCommentGet
  | CreatePdf _ => KCreatePdf
  | CreateWriteStream _ => KCreateWriteStream
  | ConsoleLog _ => KConsoleLog
  | ConsoleError _ => KConsoleError
  end.

(** Whether the fetch answered with a record, and whether the store
    answered with at least one comment. *)
Definition has_statistics (env : Env) (country : string) : bool :=
  match httpGet env (resolve_url env country) with
  | Some _ => true
  | None => false
  end.

Definition has_comments (env : Env) (country : string) : bool :=
  match commentGet env country with
  | Some cs => Nat.ltb 0 (List.length cs)
  | None => false
  end.

(** Lines 183-186: what is pushed after the base content. *)
Definition comment_section (env : Env) (country : string) : list Block :=
  match commentGet env country with
  | Some cs =>
      if Nat.ltb 0 (List.length cs)
      then [comment_heading; comment_table env cs]
      else []
  | None => []
  end.





Import Locale.

(** * Properties *)

Example toLocaleString_1234567 :
  Locale.toLocaleString (Js.Fin 1234567) = "1,234,567".
Proof. reflexivity. Qed.

Example toLocaleString_small :
  map Locale.toLocaleString [Js.Fin 0; Js.Fin 999; Js.Fin 1000; Js.Fin (-1234)]
  = ["0"; "999"; "1,000"; "-1,234"].
Proof. reflexivity. Qed.

Example sample_run_all :
  pdfGenerateFile Sample.ok "2021/03/05 14:07" "all" Sample.image
  = ( [ HttpGet "https://disease.sh/v3/covid-19/all";
        Translate "all";
        Clock;
        CommentGet "all";
        CreatePdf (docDefinition "2021/03/05 14:07"
                     (info_table "all" "7,800,000,000")
                     (status_table Sample.world) Sample.image);
        CreateWriteStream "./output/Report-all-20210305140700.pdf";
        ConsoleLog [ "[INFO] "; "./output/Report-all-20210305140700.pdf";
                     "has been saved." ] ],
      Resolved (Some "./output/Report-all-20210305140700.pdf") ).
Proof. reflexivity. Qed.

Example sample_comment_rows :
  push_comment_rows Sample.ok Sample.notes [comment_header]
  = [ comment_header;
      [ Plain "2021-03-05 14:07"; Plain "State of emergency extended" ];
      [ Plain "2021-11-21 09:30"; Plain "<b>Booster</b> roll-out started" ] ].
Proof. reflexivity. Qed.

(** ** How a run unfolds *)

Lemma tables_for_no_data env country :
  httpGet env (resolve_url env country) = None ->
  tables_for env country = (Bare "", Bare "").
Proof. unfold tables_for. intros ->. reflexivity. Qed.

Lemma tables_for_data env country r :
  httpGet env (resolve_url env country) = Some r ->
  tables_for env country
  = (info_table
       (match translateCountryName env country with
        | None => country
        | Some n => n
        end)
       (numeric_cell (population r)),
     status_table r).
Proof. unfold tables_for. intros ->. reflexivity. Qed.

Lemma assemble_result env datetime_ country image_file :
  result (assemble env datetime_ country image_file)
  = (append_comments env (commentGet env country)
       (docDefinition datetime_ (fst (tables_for env country))
          (snd (tables_for env country)) image_file),
     output_file_of env country).
Proof.
  unfold assemble, tables_for, result, output_file_of.
  destruct (httpGet env (resolve_url env country)); reflexivity.
Qed.

Lemma assemble_trace env datetime_ country image_file :
  trace (assemble env datetime_ country image_file)
  = (HttpGet (resolve_url env country)
     :: match httpGet env (resolve_url env country) with
        | Some _ => [Translate country]
        | None => []
        end
     ++ [Clock; CommentGet country])%list.
Proof.
  unfold assemble, trace.
  destruct (httpGet env (resolve_url env country)); reflexivity.
Qed.

Lemma document_eq env datetime_ country image_file :
  document env datetime_ country image_file
  = append_comments env (commentGet env country)
      (docDefinition datetime_ (fst (tables_for env country))
         (snd (tables_for env country)) image_file).
Proof. unfold document. rewrite assemble_result. reflexivity. Qed.

(** Past the guard, a run is the assembly followed by the [try] block on the
    assembled document. *)
Lemma pdfGenerateFile_past_guard env datetime_ country image_file :
  Js.loose_eq_empty image_file = false ->
  trace (pdfGenerateFile env datetime_ country image_file)
  = (trace (assemble env datetime_ country image_file)
     ++ trace (write_out env (document env datetime_ country image_file)
                 (output_file_of env country)))%list
  /\ result (pdfGenerateFile env datetime_ country image_file)
     = result (write_out env (document env datetime_ country image_file)
                 (output_file_of env country)).
Proof.
  intros Hguard. unfold pdfGenerateFile. rewrite Hguard.
  unfold document.
  pose proof (assemble_result env datetime_ country image_file) as Hres.
  destruct (assemble env datetime_ country image_file) as [t [doc path]].
  unfold result in Hres. simpl in Hres. injection Hres as Hdoc Hpath.
  simpl. rewrite <- Hpath.
  unfold bind, trace, result.
  destruct (write_out env doc path) as [t' o]. simpl. split; reflexivity.
Qed.

(** The three ways through the [try] block. *)
Lemma write_out_completed env doc path :
  createPdfKitDocument env doc = None ->
  finished env path = None ->
  write_out env doc path
  = ([ CreatePdf doc; CreateWriteStream path;
       ConsoleLog ["[INFO] "; path; "has been saved."] ],
     Resolved (Some path)).
Proof. intros Hr Hw. unfold write_out, try_body. simpl. rewrite Hr. simpl. rewrite Hw. reflexivity. Qed.

Lemma write_out_render_raised env doc path ex :
  createPdfKitDocument env doc = Some ex ->
  write_out env doc path
  = ([ CreatePdf doc; ConsoleError (name ex ++ ": " ++ message ex) ],
     if global_output env then Resolved (Some path)
     else Rejected ReferenceError_output).
Proof.
  intros Hr. unfold write_out, try_body, catch_handler. simpl. rewrite Hr. simpl.
  destruct (global_output env); reflexivity.
Qed.

Lemma write_out_write_raised env doc path ex :
  createPdfKitDocument env doc = None ->
  finished env path = Some ex ->
  write_out env doc path
  = ([ CreatePdf doc; CreateWriteStream path;
       ConsoleError (name ex ++ ": " ++ message ex) ],
     if global_output env then Resolved (Some path)
     else Rejected ReferenceError_output).
Proof.
  intros Hr Hw. unfold write_out, try_body, catch_handler. simpl. rewrite Hr. simpl.
  rewrite Hw. simpl. destruct (global_output env); reflexivity.
Qed.

(** The renderer is always reached once the guard is passed. *)
Lemma write_out_starts_with_render env doc path :
  exists rest, trace (write_out env doc path) = CreatePdf doc :: rest.
Proof.
  destruct (createPdfKitDocument env doc) as [ex|] eqn:Hr.
  - rewrite (write_out_render_raised env doc path ex Hr). simpl. eauto.
  - destruct (finished env path) as [ex|] eqn:Hw.
    + rewrite (write_out_write_raised env doc path ex Hr Hw). simpl. eauto.
    + rewrite (write_out_completed env doc path Hr Hw). simpl. eauto.
Qed.

(** The outcome of the [try] block is never [null]. *)
Lemma write_out_never_null env doc path :
  result (write_out env doc path) <> Resolved None.
Proof.
  destruct (createPdfKitDocument env doc) as [ex|] eqn:Hr.
  - rewrite (write_out_render_raised env doc path ex Hr). simpl.
    destruct (global_output env); discriminate.
  - destruct (finished env path) as [ex|] eqn:Hw.
    + rewrite (write_out_write_raised env doc path ex Hr Hw). simpl.
      destruct (global_output env); discriminate.
    + rewrite (write_out_completed env doc path Hr Hw). discriminate.
Qed.

(** ** The guard on the image handle *)


Lemma guard_short_circuits env datetime_ country v :
  Js.loose_eq_empty v = true ->
  pdfGenerateFile env datetime_ country v = ([], Resolved None).
Proof. intros H. unfold pdfGenerateFile. rewrite H. reflexivity. Qed.

(** C2: called with the empty string as image handle, [pdfGenerateFile]
    resolves with [null] at once: the run makes no call at all, so there is
    no statistics fetch, no comment fetch, no table, no file and no log
    line. *)
Theorem empty_image_returns_null_without_effects :
  forall env datetime_ country,
    trace (pdfGenerateFile env datetime_ country (Js.Str "")) = []
    /\ result (pdfGenerateFile env datetime_ country (Js.Str "")) = Resolved None.
Proof. intros. split; reflexivity. Qed.




(** ** The exception handler *)

(** Whenever a statement of the [try] block raises, the handler logs the
    exception's name and message; the run then either is rejected with the
    ReferenceError raised by the handler's own assignment or resolves with the
    file name.  It does not resolve with [null]. *)
Lemma raised_exception_is_not_turned_into_null env datetime_ country v ex :
  Js.loose_eq_empty v = false ->
  createPdfKitDocument env (document env datetime_ country v) = Some ex
  \/ (createPdfKitDocument env (document env datetime_ country v) = None
      /\ finished env (output_file_of env country) = Some ex) ->
  let run := pdfGenerateFile env datetime_ country v in
  In (ConsoleError (name ex ++ ": " ++ message ex)) (trace run)
  /\ result run
     = (if global_output env then Resolved (Some (output_file_of env country))
        else Rejected ReferenceError_output)
  /\ result run <> Resolved None.
Proof.
  intros Hguard Hraise run.
  destruct (pdfGenerateFile_past_guard env datetime_ country v Hguard) as [Ht Hr].
  fold run in Ht, Hr.
  assert (Hnn : result run <> Resolved None)
    by (rewrite Hr; apply write_out_never_null).
  destruct Hraise as [Hrender | [Hrender Hwrite]].
  - rewrite (write_out_render_raised _ _ (output_file_of env country) ex Hrender)
      in Ht, Hr.
    repeat split; [| exact Hr | exact Hnn].
    rewrite Ht. apply in_or_app. right. simpl. tauto.
  - rewrite (write_out_write_raised _ _ _ ex Hrender Hwrite) in Ht, Hr.
    repeat split; [| exact Hr | exact Hnn].
    rewrite Ht. apply in_or_app. right. simpl. tauto.
Qed.

(** C1: a run in which the write stream fails with ENOENT.  The handler
    logs ["Error: ENOENT..."], and the promise is then rejected with
    [ReferenceError: output is not defined]; it is not resolved with
    [null]. *)
Theorem write_failure_rejects_with_ReferenceError :
  pdfGenerateFile (Sample.env None (Some Sample.ENOENT))
    "2021/03/05 14:07" "all" Sample.image
  = ( [ HttpGet "https://disease.sh/v3/covid-19/all";
        Translate "all";
        Clock;
        CommentGet "all";
        CreatePdf (docDefinition "2021/03/05 14:07"
                     (info_table "all" "7,800,000,000")
                     (status_table Sample.world) Sample.image);
        CreateWriteStream "./output/Report-all-20210305140700.pdf";
        ConsoleError
          "Error: ENOENT: no such file or directory, open './output/Report-all-20210305140700.pdf'" ],
      Rejected ReferenceError_output ).
Proof. reflexivity. Qed.

(** ** The statistics address *)

Lemma append_assoc (a b c : string) : (a ++ b) ++ c = a ++ (b ++ c).
Proof. induction a as [|ch a IH]; simpl; [reflexivity | now rewrite IH]. Qed.

Lemma resolve_url_all env : resolve_url env "all" = BASE_URL env ++ "all".
Proof. reflexivity. Qed.

Lemma resolve_url_country env country :
  country <> "all" ->
  resolve_url env country = BASE_URL env ++ "countries/" ++ country.
Proof.
  intros H. unfold resolve_url. apply String.eqb_neq in H. rewrite H. reflexivity.
Qed.

(** C9: with [BASE_URL] being [<base>/], the statistics are fetched from
    [<base>/all] when the target is ["all"] and from [<base>/countries/<id>]
    for every other target [<id>]; that address is the first call of every
    run that passes the guard. *)
Theorem statistics_url_resolution :
  forall env base,
    BASE_URL env = base ++ "/" ->
    resolve_url env "all" = base ++ "/all"
    /\ (forall id, id <> "all" ->
        resolve_url env id = base ++ "/countries/" ++ id)
    /\ (forall datetime_ id v,
        Js.loose_eq_empty v = false ->
        exists rest,
          trace (pdfGenerateFile env datetime_ id v)
          = HttpGet (resolve_url env id) :: rest).
Proof.
  intros env base Hbase. repeat split.
  - rewrite resolve_url_all, Hbase, append_assoc. reflexivity.
  - intros id Hid. rewrite (resolve_url_country env id Hid), Hbase, append_assoc.
    reflexivity.
  - intros datetime_ id v Hguard.
    destruct (pdfGenerateFile_past_guard env datetime_ id v Hguard) as [Ht _].
    rewrite Ht, assemble_trace. simpl. eauto.
Qed.

Lemma statistics_url_resolution_witness :
  resolve_url Sample.ok "all" = "https://disease.sh/v3/covid-19/all"
  /\ resolve_url Sample.ok "Japan"
     = "https://disease.sh/v3/covid-19/countries/Japan".
Proof.
  pose proof (statistics_url_resolution Sample.ok Sample.base eq_refl) as H.
  split.
  - exact (proj1 H).
  - apply (proj1 (proj2 H) "Japan"). discriminate.
Defined.

(** ** The content of the assembled document *)

(** The loop appends, in order, one row per comment. *)
Lemma push_comment_rows_map env cs body :
  push_comment_rows env cs body = (body ++ map (comment_row env) cs)%list.
Proof.
  unfold push_comment_rows. revert body.
  induction cs as [|c cs IH]; intros body; simpl.
  - now rewrite app_nil_r.
  - rewrite IH, <- app_assoc. reflexivity.
Qed.

Lemma content_with_comments env datetime_ country v cs :
  commentGet env country = Some cs ->
  cs <> [] ->
  content (document env datetime_ country v)
  = (base_blocks env datetime_ country v
     ++ [comment_heading; comment_table env cs])%list.
Proof.
  intros Hget Hne. rewrite document_eq, Hget. unfold append_comments.
  destruct cs as [|c cs]; [congruence|].
  simpl Nat.ltb. cbv iota. simpl content. unfold push.
  rewrite push_comment_rows_map, <- app_assoc. reflexivity.
Qed.

Lemma content_without_comments env datetime_ country v :
  commentGet env country = None \/ commentGet env country = Some [] ->
  content (document env datetime_ country v) = base_blocks env datetime_ country v.
Proof. intros [H|H]; rewrite document_eq, H; reflexivity. Qed.

Lemma content_starts_with_base env datetime_ country v :
  exists tail,
    content (document env datetime_ country v)
    = (base_blocks env datetime_ country v ++ tail)%list.
Proof.
  destruct (commentGet env country) as [[|c cs]|] eqn:Hget.
  - exists []. rewrite app_nil_r. apply content_without_comments. now right.
  - eexists. apply (content_with_comments env datetime_ country v (c :: cs) Hget).
    discriminate.
  - exists []. rewrite app_nil_r. apply content_without_comments. now left.
Qed.

Lemma rule_of_document env datetime_ country v :
  pageBreakBefore (document env datetime_ country v) = page_break_rule.
Proof.
  rewrite document_eq. unfold append_comments.
  destruct (commentGet env country) as [cs|]; [|reflexivity].
  destruct (Nat.ltb 0 (List.length cs)); reflexivity.
Qed.

(** No entry of the base content carries an [id], and none is a table that
    starts with the comment header. *)
Lemma base_blocks_have_no_id env datetime_ country v b :
  In b (base_blocks env datetime_ country v) -> node_id b = Js.Undefined.
Proof.
  unfold base_blocks, tables_for.
  destruct (httpGet env (resolve_url env country)) as [r|]; simpl;
    intros H; repeat (destruct H as [<-|H]; [reflexivity|]); contradiction.
Qed.

Lemma base_blocks_hold_no_comment_table env datetime_ country v b style h rows :
  In b (base_blocks env datetime_ country v) ->
  b <> TableBlock style h (comment_header :: rows).
Proof.
  unfold base_blocks, tables_for.
  destruct (httpGet env (resolve_url env country)) as [r|]; simpl;
    intros H; repeat (destruct H as [<-|H]; [discriminate|]); contradiction.
Qed.

Lemma document_is_rendered env datetime_ country v :
  Js.loose_eq_empty v = false ->
  In (CreatePdf (document env datetime_ country v))
     (trace (pdfGenerateFile env datetime_ country v)).
Proof.
  intros Hguard.
  destruct (pdfGenerateFile_past_guard env datetime_ country v Hguard) as [Ht _].
  destruct (write_out_starts_with_render env (document env datetime_ country v)
              (output_file_of env country)) as [rest Hrest].
  rewrite Ht, Hrest. apply in_or_app. right. left. reflexivity.
Qed.

(** ** The page-break rule *)

Lemma page_break_rule_iff b :
  page_break_rule b = true <-> node_id b = Js.Str "comment".
Proof.
  unfold page_break_rule.
  destruct (node_id b) as [| |x|n|s]; simpl; try (split; discriminate).
  destruct (String.eqb_spec s "comment") as [->|Hne]; split; try reflexivity;
    try discriminate.
  intros H. injection H as H. contradiction.
Qed.

(** C5: the predicate handed to the renderer answers [true] exactly on a
    node whose [id] is the string ["comment"]; among the entries of a
    document built by [pdfGenerateFile] that is the comment heading and
    nothing else, so no other entry forces a page break. *)
Theorem page_break_only_before_comment_heading :
  forall env datetime_ country v,
    pageBreakBefore (document env datetime_ country v) = page_break_rule
    /\ (forall b, page_break_rule b = true <-> node_id b = Js.Str "comment")
    /\ (forall b,
        In b (content (document env datetime_ country v)) ->
        (pageBreakBefore (document env datetime_ country v) b = true
         <-> b = comment_heading)).
Proof.
  intros env datetime_ country v. split; [apply rule_of_document|].
  split; [apply page_break_rule_iff|].
  intros b Hin. rewrite rule_of_document. split.
  - intros Hrule. apply page_break_rule_iff in Hrule.
    destruct (commentGet env country) as [[|c cs]|] eqn:Hget.
    + rewrite content_without_comments in Hin by now right.
      rewrite (base_blocks_have_no_id env datetime_ country v b Hin) in Hrule.
      discriminate.
    + rewrite (content_with_comments env datetime_ country v (c :: cs) Hget)
        in Hin by discriminate.
      apply in_app_or in Hin. destruct Hin as [Hin|[<-|[<-|[]]]].
      * rewrite (base_blocks_have_no_id env datetime_ country v b Hin) in Hrule.
        discriminate.
      * reflexivity.
      * discriminate.
    + rewrite content_without_comments in Hin by now left.
      rewrite (base_blocks_have_no_id env datetime_ country v b Hin) in Hrule.
      discriminate.
  - intros ->. reflexivity.
Qed.

Lemma page_break_only_before_comment_heading_witness :
  map (pageBreakBefore (document Sample.ok "2021/03/05 14:07" "Japan" Sample.image))
      (content (document Sample.ok "2021/03/05 14:07" "Japan" Sample.image))
  = [false; false; false; false; false; false; false; true; false]
  /\ (pageBreakBefore (document Sample.ok "2021/03/05 14:07" "Japan" Sample.image)
        comment_heading = true
      <-> comment_heading = comment_heading).
Proof.
  split.
  - reflexivity.
  - apply (proj2 (proj2 (page_break_only_before_comment_heading
                           Sample.ok "2021/03/05 14:07" "Japan" Sample.image))).
    vm_compute. tauto.
Defined.

(** ** The report without statistics *)

(** C3: when the statistics fetch answers [null] (and the image handle
    passed the guard), the document handed to the renderer starts with the
    title, the time line, the status heading, the chart heading and the chart
    image, with the empty string where each table would stand; it holds no
    identity table and no status table; and when neither the renderer nor the
    write stream raises, the file is written and the run resolves with its
    name. *)
Theorem no_statistics_still_produces_report :
  forall env datetime_ country v,
    Js.loose_eq_empty v = false ->
    httpGet env (resolve_url env country) = None ->
    let run := pdfGenerateFile env datetime_ country v in
    let doc := document env datetime_ country v in
    In (CreatePdf doc) (trace run)
    /\ firstn 7 (content doc)
       = [ Text "COVID-19 レポート" "title" None;
           Text ("作成時刻: " ++ datetime_) "datetime" None;
           Bare "";
           Text "感染状況：" "sub_title" None;
           Bare "";
           Text "感染履歴グラフ：" "sub_title" None;
           Image v 450 300 ]
    /\ (forall translated population_,
          ~ In (info_table translated population_) (content doc))
    /\ (forall r, ~ In (status_table r) (content doc))
    /\ (createPdfKitDocument env doc = None ->
        finished env (output_file_of env country) = None ->
        In (CreateWriteStream (output_file_of env country)) (trace run)
        /\ result run = Resolved (Some (output_file_of env country))).
Proof.
  intros env datetime_ country v Hguard Hfetch run doc.
  assert (Hbase : base_blocks env datetime_ country v
                  = base_content datetime_ (Bare "") (Bare "") v).
  { unfold base_blocks. now rewrite (tables_for_no_data env country Hfetch). }
  assert (Hcontent : exists tail,
             content doc = (base_content datetime_ (Bare "") (Bare "") v ++ tail)%list
             /\ (tail = []
                 \/ exists cs, tail = [comment_heading; comment_table env cs])).
  { unfold doc. destruct (commentGet env country) as [[|c cs]|] eqn:Hget.
    - exists []. rewrite app_nil_r, <- Hbase. split; [|now left].
      apply content_without_comments. now right.
    - eexists. rewrite <- Hbase. split.
      + apply (content_with_comments env datetime_ country v (c :: cs) Hget).
        discriminate.
      + right. eauto.
    - exists []. rewrite app_nil_r, <- Hbase. split; [|now left].
      apply content_without_comments. now left. }
  destruct Hcontent as [tail [Hcontent Htail]].
  split; [apply document_is_rendered; exact Hguard|].
  split; [rewrite Hcontent; reflexivity|].
  split; [|split].
  - intros translated population_ Hin. rewrite Hcontent in Hin.
    apply in_app_or in Hin. destruct Hin as [Hin|Hin].
    + simpl in Hin. repeat (destruct Hin as [Hin|Hin]; [discriminate|]).
      contradiction.
    + destruct Htail as [->|[cs ->]]; [contradiction|].
      destruct Hin as [Hin|[Hin|[]]]; discriminate.
  - intros r Hin. rewrite Hcontent in Hin.
    apply in_app_or in Hin. destruct Hin as [Hin|Hin].
    + simpl in Hin. repeat (destruct Hin as [Hin|Hin]; [discriminate|]).
      contradiction.
    + destruct Htail as [->|[cs ->]]; [contradiction|].
      destruct Hin as [Hin|[Hin|[]]]; discriminate.
  - intros Hrender Hwrite.
    destruct (pdfGenerateFile_past_guard env datetime_ country v Hguard) as [Ht Hr].
    fold run in Ht, Hr. fold doc in Ht, Hr.
    rewrite (write_out_completed env doc _ Hrender Hwrite) in Ht, Hr.
    split; [|exact Hr].
    rewrite Ht. apply in_or_app. right. simpl. tauto.
Qed.

Lemma no_statistics_still_produces_report_witness :
  content (document Sample.ok "2021/03/05 14:07" "Atlantis" Sample.image)
  = [ Text "COVID-19 レポート" "title" None;
      Text "作成時刻: 2021/03/05 14:07" "datetime" None;
      Bare "";
      Text "感染状況：" "sub_title" None;
      Bare "";
      Text "感染履歴グラフ：" "sub_title" None;
      Image Sample.image 450 300 ]
  /\ result (pdfGenerateFile Sample.ok "2021/03/05 14:07" "Atlantis" Sample.image)
     = Resolved (Some "./output/Report-Atlantis-20210305140700.pdf").
Proof.
  pose proof (no_statistics_still_produces_report
                Sample.ok "2021/03/05 14:07" "Atlantis" Sample.image
                eq_refl eq_refl) as H.
  split.
  - exact (proj1 (proj2 H)).
  - exact (proj2 (proj2 (proj2 (proj2 (proj2 H))) eq_refl eq_refl)).
Defined.

(** ** The comment section *)

(** C4: when the comment store answers with at least one entry, the content
    is the seven base entries followed by exactly the comment heading, which
    carries the [id] the page-break rule looks for, and one table whose body
    is the header row followed by one row per entry, in order, holding the
    entry's date rendered with the pattern [YYYY-MM-DD HH24:MI] and its text
    unchanged; no base entry carries an [id] or is a comment table.  When the
    store answers [null] or the empty list, the content is the seven base
    entries alone and holds neither block. *)
Theorem comment_section_shape :
  forall env datetime_ country v,
    Js.loose_eq_empty v = false ->
    let doc := document env datetime_ country v in
    let base := base_blocks env datetime_ country v in
    In (CreatePdf doc) (trace (pdfGenerateFile env datetime_ country v))
    /\ List.length base = 7
    /\ (forall b, In b base ->
          node_id b = Js.Undefined
          /\ forall style h rows, b <> TableBlock style h (comment_header :: rows))
    /\ (forall cs,
          commentGet env country = Some cs -> cs <> [] ->
          content doc
          = (base
             ++ [ Text "コメント：" "sub_title" (Some "comment");
                  TableBlock "tableBody" 20
                    ([ Styled "日時" "tableHeader"; Styled "コメント" "tableHeader" ]
                     :: map (fun c =>
                               [ Plain (toFormat env (datetime c) "YYYY-MM-DD HH24:MI");
                                 Plain (comment c) ]) cs) ])%list
          /\ List.length (comment_header :: map (comment_row env) cs)
             = S (List.length cs)
          /\ pageBreakBefore doc (Text "コメント：" "sub_title" (Some "comment")) = true)
    /\ (commentGet env country = None \/ commentGet env country = Some [] ->
        content doc = base
        /\ (forall text style, ~ In (Text text style (Some "comment")) (content doc))
        /\ (forall style h rows,
              ~ In (TableBlock style h (comment_header :: rows)) (content doc))).
Proof.
  intros env datetime_ country v Hguard doc base.
  split; [apply document_is_rendered; exact Hguard|].
  split; [reflexivity|].
  split; [|split].
  - intros b Hin. split.
    + apply (base_blocks_have_no_id env datetime_ country v b Hin).
    + intros style h rows.
      apply (base_blocks_hold_no_comment_table env datetime_ country v b style h rows Hin).
  - intros cs Hget Hne. split; [|split].
    + apply (content_with_comments env datetime_ country v cs Hget Hne).
    + simpl. now rewrite length_map.
    + unfold doc. rewrite rule_of_document. reflexivity.
  - intros Hnone.
    pose proof (content_without_comments env datetime_ country v Hnone) as Hc.
    fold doc in Hc. fold base in Hc.
    split; [exact Hc|]. rewrite Hc. split.
    + intros text style Hin.
      pose proof (base_blocks_have_no_id env datetime_ country v _ Hin) as Hid.
      discriminate.
    + intros style h rows Hin.
      apply (base_blocks_hold_no_comment_table env datetime_ country v _ style h rows Hin).
      reflexivity.
Qed.

Lemma comment_section_shape_witness :
  content (document Sample.ok "2021/03/05 14:07" "Japan" Sample.image)
  = (base_blocks Sample.ok "2021/03/05 14:07" "Japan" Sample.image
     ++ [ Text "コメント：" "sub_title" (Some "comment");
          TableBlock "tableBody" 20
            [ [ Styled "日時" "tableHeader"; Styled "コメント" "tableHeader" ];
              [ Plain "2021-03-05 14:07"; Plain "State of emergency extended" ];
              [ Plain "2021-11-21 09:30"; Plain "<b>Booster</b> roll-out started" ] ] ])%list
  /\ content (document Sample.ok "2021/03/05 14:07" "all" Sample.image)
     = base_blocks Sample.ok "2021/03/05 14:07" "all" Sample.image.
Proof.
  pose proof (comment_section_shape Sample.ok "2021/03/05 14:07" "Japan"
                Sample.image eq_refl) as HJ.
  pose proof (comment_section_shape Sample.ok "2021/03/05 14:07" "all"
                Sample.image eq_refl) as HA.
  split.
  - refine (proj1 (proj1 (proj2 (proj2 (proj2 HJ))) Sample.notes eq_refl _)).
    discriminate.
  - refine (proj1 (proj2 (proj2 (proj2 (proj2 HA))) _)).
    right. reflexivity.
Defined.

(** ** Grouping of digits *)

Lemma digit_is_no_separator c : is_digit c = true -> is_separator c = false.
Proof.
  unfold is_digit, is_separator. intros H.
  destruct (Ascii.eqb_spec c ","%char) as [->|]; [discriminate H|reflexivity].
Qed.

Lemma string_of_uint_digits d :
  Forall (fun c => is_digit c = true) (list_ascii_of_string (NilEmpty.string_of_uint d)).
Proof. induction d; simpl; constructor; auto. Qed.

Lemma digits_of_digits n : Forall (fun c => is_digit c = true) (digits_of n).
Proof.
  unfold digits_of, NilZero.string_of_uint.
  destruct (N.to_uint n); try apply string_of_uint_digits.
  simpl. repeat constructor.
Qed.

Lemma strip_group_from k ds :
  Forall (fun c => is_digit c = true) ds ->
  strip_separators (group_from k ds) = ds.
Proof.
  intros H. revert k. induction H as [|d ds Hd _ IH]; intros k; simpl.
  - reflexivity.
  - apply digit_is_no_separator in Hd.
    destruct (Nat.eqb k 3); simpl; rewrite Hd; simpl; now rewrite IH.
Qed.

Lemma strip_group_digits ds :
  Forall (fun c => is_digit c = true) ds ->
  strip_separators (group_digits ds) = ds.
Proof.
  intros H. unfold group_digits, strip_separators. rewrite filter_rev.
  fold (strip_separators (group_from 0 (rev ds))).
  rewrite strip_group_from by now apply Forall_rev.
  apply rev_involutive.
Qed.

Lemma length_group_from k ds :
  k <= 3 ->
  List.length (group_from k ds) = List.length ds + (List.length ds + k - 1) / 3.
Proof.
  revert k. induction ds as [|d ds IH]; intros k Hk; cbn [group_from List.length].
  - rewrite Nat.div_small by lia. reflexivity.
  - destruct (Nat.eqb_spec k 3) as [->|Hne]; cbn [List.length]; rewrite IH by lia.
    + replace (S (List.length ds) + 3 - 1) with (1 * 3 + (List.length ds + 1 - 1)) by lia.
      rewrite Nat.div_add_l by lia. lia.
    + replace (S (List.length ds) + k - 1) with (List.length ds + S k - 1) by lia.
      reflexivity.
Qed.

Lemma length_group_digits ds :
  List.length (group_digits ds) = List.length ds + (List.length ds - 1) / 3.
Proof.
  unfold group_digits. rewrite length_rev, length_group_from by lia.
  rewrite length_rev. now rewrite Nat.add_0_r.
Qed.

Lemma separators_group_from k ds i :
  k <= 3 ->
  Forall (fun c => is_digit c = true) ds ->
  i < List.length (group_from k ds) ->
  (is_separator (nth i (group_from k ds) "0"%char) = true <-> (i + k) mod 4 = 3).
Proof.
  intros Hk H. revert k i Hk.
  induction H as [|d ds Hd _ IH]; intros k i Hk Hi; cbn [group_from] in *.
  - simpl in Hi. lia.
  - apply digit_is_no_separator in Hd.
    destruct (Nat.eqb_spec k 3) as [->|Hne].
    + destruct i as [|[|i]]; cbn [nth List.length] in *.
      * split; reflexivity.
      * rewrite Hd. split; discriminate.
      * rewrite IH by lia.
        replace (S (S i) + 3) with (i + 1 + 1 * 4) by lia.
        rewrite Nat.Div0.mod_add. reflexivity.
    + destruct i as [|i]; cbn [nth List.length] in *.
      * rewrite Hd. split; [discriminate|]. rewrite Nat.mod_small by lia. lia.
      * rewrite IH by lia.
        replace (i + S k) with (S i + k) by lia. reflexivity.
Qed.

Lemma separators_group_digits ds j :
  Forall (fun c => is_digit c = true) ds ->
  j < List.length (group_digits ds) ->
  (is_separator (nth j (rev (group_digits ds)) "0"%char) = true <-> j mod 4 = 3).
Proof.
  intros H Hj. unfold group_digits in *. rewrite rev_involutive.
  rewrite length_rev in Hj.
  rewrite separators_group_from; [|lia|now apply Forall_rev|exact Hj].
  now rewrite Nat.add_0_r.
Qed.

Lemma numeric_cell_nonneg z :
  (0 <= z)%Z ->
  list_ascii_of_string (numeric_cell (Js.Value_ z))
  = group_digits (digits_of (Z.to_N z)).
Proof.
  intros Hz. unfold numeric_cell. simpl.
  destruct (Z.ltb_spec z 0) as [Hneg|_]; [lia|].
  apply list_ascii_of_string_of_list_ascii.
Qed.

(** The rendering of a non-negative number: without its separators it is the
    decimal numeral, and counting from the right (from 0) the separators sit
    exactly at the positions 3, 7, 11, ... *)
Lemma numeric_cell_grouping z :
  (0 <= z)%Z ->
  strip_separators (list_ascii_of_string (numeric_cell (Js.Value_ z)))
  = digits_of (Z.to_N z)
  /\ forall j,
      j < String.length (numeric_cell (Js.Value_ z)) ->
      (is_separator
         (nth j (rev (list_ascii_of_string (numeric_cell (Js.Value_ z)))) "0"%char)
       = true
       <-> j mod 4 = 3).
Proof.
  intros Hz. split.
  - rewrite (numeric_cell_nonneg z Hz).
    apply strip_group_digits, digits_of_digits.
  - intros j Hj. rewrite (numeric_cell_nonneg z Hz).
    apply separators_group_digits; [apply digits_of_digits|].
    rewrite <- (numeric_cell_nonneg z Hz).
    clear -Hj. revert j Hj.
    induction (numeric_cell (Js.Value_ z)) as [|c s IH]; intros j Hj; simpl in *;
      [exact Hj|].
    destruct j; [lia|]. apply -> Nat.succ_lt_mono. apply IH. lia.
Qed.

Lemma NaN_renders_absence : renders_absence (numeric_cell Js.Absent).
Proof.
  intros z H. change (numeric_cell Js.Absent) with "NaN" in H.
  destruct (Z.ltb_spec z 0) as [Hneg|Hpos].
  - unfold numeric_cell in H. simpl in H.
    destruct (Z.ltb_spec z 0) as [_|Hge]; [|lia].
    discriminate H.
  - pose proof (proj1 (numeric_cell_grouping z Hpos)) as Hstrip.
    rewrite <- H in Hstrip. simpl in Hstrip.
    pose proof (digits_of_digits (Z.to_N z)) as Hd.
    rewrite <- Hstrip in Hd. inversion Hd as [|c l Hc _]. discriminate Hc.
Qed.

(** ** The report with statistics *)

Lemma base_blocks_with_statistics env datetime_ country v r :
  httpGet env (resolve_url env country) = Some r ->
  base_blocks env datetime_ country v
  = [ Text "COVID-19 レポート" "title" None;
      Text ("作成時刻: " ++ datetime_) "datetime" None;
      info_table (translated_name env country) (numeric_cell (population r));
      Text "感染状況：" "sub_title" None;
      status_table r;
      Text "感染履歴グラフ：" "sub_title" None;
      Image v 450 300 ].
Proof.
  intros Hfetch. unfold base_blocks.
  rewrite (tables_for_data env country r Hfetch). reflexivity.
Qed.

Lemma nth_error_base env datetime_ country v n b :
  nth_error (base_blocks env datetime_ country v) n = Some b ->
  nth_error (content (document env datetime_ country v)) n = Some b.
Proof.
  intros H. destruct (content_starts_with_base env datetime_ country v) as [tail ->].
  rewrite nth_error_app1; [exact H|].
  apply nth_error_Some. rewrite H. discriminate.
Qed.

(** C6, as the code has it: after a successful fetch the content, before any
    comment section, is seven entries: the five fixed ones (title, time line,
    status heading, chart heading, chart image) and the two tables, in the
    order title, time line, identity table, status heading, status table,
    chart heading, chart image. *)
Theorem base_content_with_statistics :
  forall env datetime_ country v r,
    Js.loose_eq_empty v = false ->
    httpGet env (resolve_url env country) = Some r ->
    let doc := document env datetime_ country v in
    let base := base_blocks env datetime_ country v in
    In (CreatePdf doc) (trace (pdfGenerateFile env datetime_ country v))
    /\ (exists tail, content doc = (base ++ tail)%list)
    /\ base
       = [ Text "COVID-19 レポート" "title" None;
           Text ("作成時刻: " ++ datetime_) "datetime" None;
           info_table (translated_name env country) (numeric_cell (population r));
           Text "感染状況：" "sub_title" None;
           status_table r;
           Text "感染履歴グラフ：" "sub_title" None;
           Image v 450 300 ]
    /\ List.length base = 7
    /\ List.length (filter (fun b => negb (is_table b)) base) = 5
    /\ filter is_table base
       = [ info_table (translated_name env country) (numeric_cell (population r));
           status_table r ].
Proof.
  intros env datetime_ country v r Hguard Hfetch doc base.
  split; [apply document_is_rendered; exact Hguard|].
  split; [apply content_starts_with_base|].
  unfold base. rewrite (base_blocks_with_statistics env datetime_ country v r Hfetch).
  repeat split.
Qed.

Lemma base_content_with_statistics_witness :
  base_blocks Sample.ok "2021/03/05 14:07" "Japan" Sample.image
  = [ Text "COVID-19 レポート" "title" None;
      Text "作成時刻: 2021/03/05 14:07" "datetime" None;
      info_table "日本" "1,234,567";
      Text "感染状況：" "sub_title" None;
      status_table Sample.japan;
      Text "感染履歴グラフ：" "sub_title" None;
      Image Sample.image 450 300 ].
Proof.
  exact (proj1 (proj2 (proj2 (base_content_with_statistics
                                Sample.ok "2021/03/05 14:07" "Japan" Sample.image
                                Sample.japan eq_refl eq_refl)))).
Defined.

(** C6, as stated, fails: in the run for ["all"] the content before the
    comment section has seven entries, two of them tables, so the fixed
    entries beside the tables are five and not six. *)
Lemma base_blocks_are_five_not_six :
  List.length (base_blocks Sample.ok "2021/03/05 14:07" "all" Sample.image) = 7
  /\ List.length (filter is_table
                    (base_blocks Sample.ok "2021/03/05 14:07" "all" Sample.image)) = 2
  /\ List.length (filter (fun b => negb (is_table b))
                    (base_blocks Sample.ok "2021/03/05 14:07" "all" Sample.image)) <> 6.
Proof. repeat split. discriminate. Qed.

(** C7: after a successful fetch the fifth entry of the content is the
    status table; its body is six rows, labelled and ordered as active,
    critical, recovered, cases, deaths, tests, each holding the field's
    [Number(...).toLocaleString()].  The rendering of a non-negative number
    is its decimal numeral with a separator before every group of three
    digits counted from the right; 1234567 gives ["1,234,567"]. *)
Theorem status_table_rows :
  forall env datetime_ country v r,
    Js.loose_eq_empty v = false ->
    httpGet env (resolve_url env country) = Some r ->
    nth_error (content (document env datetime_ country v)) 4 = Some (status_table r)
    /\ status_table r
       = TableBlock "tableBody" 20
           [ [ Styled "感染者数" "tableHeader";
               Plain (Locale.toLocaleString (Js.ToNumber (active r))) ];
             [ Styled "重病者数" "tableHeader";
               Plain (Locale.toLocaleString (Js.ToNumber (critical r))) ];
             [ Styled "退院・療養終了" "tableHeader";
               Plain (Locale.toLocaleString (Js.ToNumber (recovered r))) ];
             [ Styled "感染者累計" "tableHeader";
               Plain (Locale.toLocaleString (Js.ToNumber (cases r))) ];
             [ Styled "死亡者累計" "tableHeader";
               Plain (Locale.toLocaleString (Js.ToNumber (deaths r))) ];
             [ Styled "検査数" "tableHeader";
               Plain (Locale.toLocaleString (Js.ToNumber (tests r))) ] ]
    /\ (forall z, (0 <= z)%Z ->
          strip_separators (list_ascii_of_string (numeric_cell (Js.Value_ z)))
          = Locale.digits_of (Z.to_N z)
          /\ forall j,
              j < String.length (numeric_cell (Js.Value_ z)) ->
              (is_separator
                 (nth j (rev (list_ascii_of_string (numeric_cell (Js.Value_ z))))
                    "0"%char) = true
               <-> j mod 4 = 3))
    /\ numeric_cell (Js.Value_ 1234567) = "1,234,567".
Proof.
  intros env datetime_ country v r Hguard Hfetch.
  split; [|split; [reflexivity|split; [apply numeric_cell_grouping|reflexivity]]].
  apply nth_error_base.
  rewrite (base_blocks_with_statistics env datetime_ country v r Hfetch).
  reflexivity.
Qed.

Lemma status_table_rows_witness :
  nth_error (content (document Sample.ok "2021/03/05 14:07" "all" Sample.image)) 4
  = Some (TableBlock "tableBody" 20
            [ [ Styled "感染者数" "tableHeader"; Plain "1,000" ];
              [ Styled "重病者数" "tableHeader"; Plain "50" ];
              [ Styled "退院・療養終了" "tableHeader"; Plain "900" ];
              [ Styled "感染者累計" "tableHeader"; Plain "2,000" ];
              [ Styled "死亡者累計" "tableHeader"; Plain "30" ];
              [ Styled "検査数" "tableHeader"; Plain "500,000" ] ])
  /\ strip_separators (list_ascii_of_string (numeric_cell (Js.Value_ 7800000000)))
     = list_ascii_of_string "7800000000".
Proof.
  pose proof (status_table_rows Sample.ok "2021/03/05 14:07" "all" Sample.image
                Sample.world eq_refl eq_refl) as H.
  split.
  - exact (proj1 H).
  - refine (proj1 (proj1 (proj2 (proj2 H)) 7800000000%Z _)). discriminate.
Defined.

(** ** Missing and null fields *)

(** C8, as the code has it: after a successful fetch both tables are built
    in full (the identity table with its header row and one data row, the
    status table with six rows, two cells each), and every numeric cell is
    [Number(field).toLocaleString()]: a number with its separators, ["NaN"]
    for a missing field, which no number is rendered as, and ["0"] for a
    [null] field, which is also the rendering of the number zero. *)
Theorem numeric_cells_of_partial_records :
  forall env datetime_ country v r,
    Js.loose_eq_empty v = false ->
    httpGet env (resolve_url env country) = Some r ->
    nth_error (content (document env datetime_ country v)) 2
    = Some (info_table (translated_name env country) (numeric_cell (population r)))
    /\ nth_error (content (document env datetime_ country v)) 4
       = Some (status_table r)
    /\ fully_built
         (info_table (translated_name env country) (numeric_cell (population r))) 2
    /\ fully_built (status_table r) 6
    /\ (forall f,
          numeric_cell f
          = match f with
            | Js.Absent => "NaN"
            | Js.IsNull => "0"
            | Js.Value_ z => Locale.toLocaleString (Js.Fin z)
            end)
    /\ renders_absence (numeric_cell Js.Absent)
    /\ numeric_cell Js.IsNull = numeric_cell (Js.Value_ 0).
Proof.
  intros env datetime_ country v r Hguard Hfetch.
  pose proof (base_blocks_with_statistics env datetime_ country v r Hfetch) as Hbase.
  split; [apply nth_error_base; rewrite Hbase; reflexivity|].
  split; [apply nth_error_base; rewrite Hbase; reflexivity|].
  split.
  { do 3 eexists. split; [reflexivity|]. split; [reflexivity|].
    repeat constructor. }
  split.
  { do 3 eexists. split; [reflexivity|]. split; [reflexivity|].
    repeat constructor. }
  split; [intros [| |z]; reflexivity|].
  split; [apply NaN_renders_absence|reflexivity].
Qed.

Lemma numeric_cells_of_partial_records_witness :
  nth_error (content (document Sample.ok "2021/03/05 14:07" "Japan" Sample.image)) 4
  = Some (TableBlock "tableBody" 20
            [ [ Styled "感染者数" "tableHeader"; Plain "12,345" ];
              [ Styled "重病者数" "tableHeader"; Plain "0" ];
              [ Styled "退院・療養終了" "tableHeader"; Plain "400,000" ];
              [ Styled "感染者累計" "tableHeader"; Plain "450,000" ];
              [ Styled "死亡者累計" "tableHeader"; Plain "8,000" ];
              [ Styled "検査数" "tableHeader"; Plain "NaN" ] ]).
Proof.
  exact (proj1 (proj2 (numeric_cells_of_partial_records
                         Sample.ok "2021/03/05 14:07" "Japan" Sample.image
                         Sample.japan eq_refl eq_refl))).
Defined.

(** C8, as stated, fails for a [null] field: its cell is ["0"], the text a
    genuine zero gets, and not a text that stands for the absence. *)
Lemma null_field_is_rendered_as_zero :
  numeric_cell Js.IsNull = "0"
  /\ numeric_cell Js.IsNull = numeric_cell (Js.Value_ 0)
  /\ ~ renders_absence (numeric_cell Js.IsNull).
Proof.
  split; [reflexivity|]. split; [reflexivity|].
  intros H. apply (H 0%Z). reflexivity.
Qed.

(** * Further properties of [pdfGenerateFile] *)

(** ** Outcome and effects of a whole run *)

Lemma write_out_trace env doc path :
  trace (write_out env doc path)
  = CreatePdf doc
    :: match createPdfKitDocument env doc with
       | Some ex => [ConsoleError (name ex ++ ": " ++ message ex)]
       | None =>
           CreateWriteStream path
           :: match finished env path with
              | Some ex => [ConsoleError (name ex ++ ": " ++ message ex)]
              | None => [ConsoleLog ["[INFO] "; path; "has been saved."]]
              end
       end.
Proof.
  destruct (createPdfKitDocument env doc) as [ex|] eqn:Hr.
  - now rewrite (write_out_render_raised env doc path ex Hr).
  - destruct (finished env path) as [ex|] eqn:Hw.
    + now rewrite (write_out_write_raised env doc path ex Hr Hw).
    + now rewrite (write_out_completed env doc path Hr Hw).
Qed.

Lemma write_out_result env doc path :
  result (write_out env doc path)
  = match raised_in_try env doc path with
    | None => Resolved (Some path)
    | Some _ =>
        if global_output env then Resolved (Some path)
        else Rejected ReferenceError_output
    end.
Proof.
  unfold raised_in_try.
  destruct (createPdfKitDocument env doc) as [ex|] eqn:Hr.
  - now rewrite (write_out_render_raised env doc path ex Hr).
  - destruct (finished env path) as [ex|] eqn:Hw.
    + now rewrite (write_out_write_raised env doc path ex Hr Hw).
    + now rewrite (write_out_completed env doc path Hr Hw).
Qed.

Lemma run_trace env datetime_ country v :
  Js.loose_eq_empty v = false ->
  trace (pdfGenerateFile env datetime_ country v)
  = ((HttpGet (resolve_url env country)
      :: (if has_statistics env country then [Translate country] else [])
      ++ [Clock; CommentGet country])
     ++ trace (write_out env (document env datetime_ country v)
                 (output_file_of env country)))%list.
Proof.
  intros Hguard.
  destruct (pdfGenerateFile_past_guard env datetime_ country v Hguard) as [Ht _].
  rewrite Ht, assemble_trace. unfold has_statistics.
  destruct (httpGet env (resolve_url env country)); reflexivity.
Qed.

Lemma run_result env datetime_ country v :
  Js.loose_eq_empty v = false ->
  result (pdfGenerateFile env datetime_ country v)
  = match raised_in_try env (document env datetime_ country v)
            (output_file_of env country) with
    | None => Resolved (Some (output_file_of env country))
    | Some _ =>
        if global_output env then Resolved (Some (output_file_of env country))
        else Rejected ReferenceError_output
    end.
Proof.
  intros Hguard.
  destruct (pdfGenerateFile_past_guard env datetime_ country v Hguard) as [_ Hr].
  rewrite Hr. apply write_out_result.
Qed.

(** X1: the promise resolves with [null] exactly when the image handle is
    loosely equal to the empty string; no failure later in the run gives
    [null]. *)
Theorem null_only_through_guard :
  forall env datetime_ country v,
    result (pdfGenerateFile env datetime_ country v) = Resolved None
    <-> Js.loose_eq_empty v = true.
Proof.
  intros env datetime_ country v. split.
  - intros Hnull. destruct (Js.loose_eq_empty v) eqn:Hguard; [reflexivity|].
    rewrite (run_result env datetime_ country v Hguard) in Hnull.
    destruct (raised_in_try _ _ _); [destruct (global_output env)|];
      discriminate Hnull.
  - intros Hguard. now rewrite (guard_short_circuits env datetime_ country v Hguard).
Qed.

(** X2: whatever the run resolves with, if not [null], is the name
    [LOCAL_FOLDER/Report-<country>-<timestamp>.pdf]; and an exception raised
    by the renderer or the write stream never reaches the caller: a rejected
    run is rejected with the handler's own ReferenceError, which happens only
    when something was raised in the [try] block and no global [output]
    exists. *)
Theorem resolved_path_and_rejection :
  forall env datetime_ country v,
    (forall p,
        result (pdfGenerateFile env datetime_ country v) = Resolved (Some p) ->
        p = LOCAL_FOLDER env ++ "/Report-" ++ country ++ "-"
            ++ currentTimeStamp env ++ ".pdf")
    /\ (forall ex,
          result (pdfGenerateFile env datetime_ country v) = Rejected ex ->
          ex = ReferenceError_output
          /\ global_output env = false
          /\ raised_in_try env (document env datetime_ country v)
               (output_file_of env country) <> None).
Proof.
  intros env datetime_ country v.
  destruct (Js.loose_eq_empty v) eqn:Hguard.
  - rewrite (guard_short_circuits env datetime_ country v Hguard).
    split; intros x Hx; discriminate Hx.
  - rewrite (run_result env datetime_ country v Hguard).
    destruct (raised_in_try _ _ _) as [ex0|];
      [destruct (global_output env)|]; split; intros x Hx;
      try discriminate Hx; injection Hx as <-;
      try reflexivity; repeat split; discriminate.
Qed.

Lemma resolved_path_and_rejection_witness :
  "./output/Report-all-20210305140700.pdf"
  = LOCAL_FOLDER Sample.ok ++ "/Report-" ++ "all" ++ "-"
    ++ currentTimeStamp Sample.ok ++ ".pdf"
  /\ (ReferenceError_output = ReferenceError_output
      /\ global_output (Sample.env None (Some Sample.ENOENT)) = false
      /\ raised_in_try (Sample.env None (Some Sample.ENOENT))
           (document (Sample.env None (Some Sample.ENOENT))
              "2021/03/05 14:07" "all" Sample.image)
           (output_file_of (Sample.env None (Some Sample.ENOENT)) "all")
         <> None).
Proof.
  split.
  - apply (proj1 (resolved_path_and_rejection
                    Sample.ok "2021/03/05 14:07" "all" Sample.image)).
    reflexivity.
  - apply (proj2 (resolved_path_and_rejection
                    (Sample.env None (Some Sample.ENOENT))
                    "2021/03/05 14:07" "all" Sample.image)).
    reflexivity.
Defined.

(** X3: a run that passes the guard calls its collaborators in one fixed
    order, each at most once: the statistics fetch, the translation (only
    when the fetch answered), the clock, the comment store (whether or not
    the fetch answered), the renderer, then the write stream (only when the
    renderer did not raise), and last exactly one console line. *)
Theorem calls_in_order :
  forall env datetime_ country v,
    Js.loose_eq_empty v = false ->
    map kind (trace (pdfGenerateFile env datetime_ country v))
    = ([KHttpGet]
       ++ (if has_statistics env country then [KTranslate] else [])
       ++ [KClock; KCommentGet; KCreatePdf]
       ++ match createPdfKitDocument env (document env datetime_ country v) with
          | Some _ => [KConsoleError]
          | None =>
              [ KCreateWriteStream;
                match finished env (output_file_of env country) with
                | Some _ => KConsoleError
                | None => KConsoleLog
                end ]
          end)%list.
Proof.
  intros env datetime_ country v Hguard.
  rewrite (run_trace env datetime_ country v Hguard), write_out_trace.
  destruct (has_statistics env country);
    destruct (createPdfKitDocument env (document env datetime_ country v));
    try destruct (finished env (output_file_of env country)); reflexivity.
Qed.

Lemma calls_in_order_witness :
  map kind (trace (pdfGenerateFile (Sample.env None (Some Sample.ENOENT))
                     "2021/03/05 14:07" "Atlantis" Sample.image))
  = [ KHttpGet; KClock; KCommentGet; KCreatePdf; KCreateWriteStream;
      KConsoleError ].
Proof.
  exact (calls_in_order (Sample.env None (Some Sample.ENOENT))
           "2021/03/05 14:07" "Atlantis" Sample.image eq_refl).
Defined.

(** Membership in the trace of a run, split into the calls made while
    assembling and the calls of the [try] block. *)
Lemma in_run_trace env datetime_ country v e :
  Js.loose_eq_empty v = false ->
  In e (trace (pdfGenerateFile env datetime_ country v))
  <-> (e = HttpGet (resolve_url env country)
       \/ (e = Translate country /\ has_statistics env country = true)
       \/ e = Clock
       \/ e = CommentGet country)
      \/ In e (trace (write_out env (document env datetime_ country v)
                        (output_file_of env country))).
Proof.
  intros Hguard. rewrite (run_trace env datetime_ country v Hguard).
  rewrite in_app_iff.
  destruct (has_statistics env country); simpl; intuition congruence.
Qed.

(** X4: in a run that passes the guard the output file is opened exactly
    when the renderer did not raise, and never under another name; the line
    ["[INFO] " path "has been saved."] is printed exactly when nothing was
    raised in the [try] block; an error line is printed exactly when
    something was raised, and it is that exception's name and message. *)
Theorem file_and_console_lines :
  forall env datetime_ country v,
    Js.loose_eq_empty v = false ->
    let run := pdfGenerateFile env datetime_ country v in
    let doc := document env datetime_ country v in
    let path := output_file_of env country in
    (forall p,
        In (CreateWriteStream p) (trace run)
        <-> p = path /\ createPdfKitDocument env doc = None)
    /\ (forall args,
          In (ConsoleLog args) (trace run)
          <-> args = ["[INFO] "; path; "has been saved."]
              /\ raised_in_try env doc path = None)
    /\ (forall line,
          In (ConsoleError line) (trace run)
          <-> exists ex,
              raised_in_try env doc path = Some ex
              /\ line = name ex ++ ": " ++ message ex).
Proof.
  intros env datetime_ country v Hguard run doc path.
  unfold run. split; [|split].
  - intros p. rewrite (in_run_trace env datetime_ country v _ Hguard).
    fold doc. fold path. rewrite write_out_trace.
    destruct (createPdfKitDocument env doc) as [ex|];
      [|destruct (finished env path) as [ex|]]; simpl;
      intuition (try congruence).
  - intros args. rewrite (in_run_trace env datetime_ country v _ Hguard).
    fold doc. fold path. rewrite write_out_trace. unfold raised_in_try.
    destruct (createPdfKitDocument env doc) as [ex|];
      [|destruct (finished env path) as [ex|]]; simpl;
      intuition (try congruence).
  - intros line. rewrite (in_run_trace env datetime_ country v _ Hguard).
    fold doc. fold path. rewrite write_out_trace. unfold raised_in_try.
    destruct (createPdfKitDocument env doc) as [ex|];
      [|destruct (finished env path) as [ex|]]; simpl.
    + split.
      * intros [[H|[[H _]|[H|H]]]|[H|[H|[]]]]; try discriminate H.
        injection H as <-. eauto.
      * intros [ex' [Hex ->]]. injection Hex as <-. right. right. now left.
    + split.
      * intros [[H|[[H _]|[H|H]]]|[H|[H|[H|[]]]]]; try discriminate H.
        injection H as <-. eauto.
      * intros [ex' [Hex ->]]. injection Hex as <-. right. right. right. now left.
    + split.
      * intros [[H|[[H _]|[H|H]]]|[H|[H|[H|[]]]]]; discriminate H.
      * intros [ex' [Hex _]]. discriminate Hex.
Qed.

Lemma file_and_console_lines_witness :
  (In (ConsoleError "RangeError: out of memory")
      (trace (pdfGenerateFile
                (Sample.env (Some {| name := "RangeError"; message := "out of memory" |}) None)
                "2021/03/05 14:07" "Japan" Sample.image))
   <-> exists ex,
       raised_in_try
         (Sample.env (Some {| name := "RangeError"; message := "out of memory" |}) None)
         (document
            (Sample.env (Some {| name := "RangeError"; message := "out of memory" |}) None)
            "2021/03/05 14:07" "Japan" Sample.image)
         (output_file_of
            (Sample.env (Some {| name := "RangeError"; message := "out of memory" |}) None)
            "Japan")
       = Some ex
       /\ "RangeError: out of memory" = name ex ++ ": " ++ message ex).
Proof.
  apply (proj2 (proj2 (file_and_console_lines
                         (Sample.env (Some {| name := "RangeError";
                                              message := "out of memory" |}) None)
                         "2021/03/05 14:07" "Japan" Sample.image eq_refl))).
Defined.

(** ** Shape of every document *)

Lemma content_split env datetime_ country v :
  content (document env datetime_ country v)
  = (base_blocks env datetime_ country v ++ comment_section env country)%list.
Proof.
  unfold comment_section.
  destruct (commentGet env country) as [[|c cs]|] eqn:Hget.
  - rewrite app_nil_r. apply content_without_comments. now right.
  - apply (content_with_comments env datetime_ country v (c :: cs) Hget).
    discriminate.
  - rewrite app_nil_r. apply content_without_comments. now left.
Qed.

Lemma comment_section_cases env country :
  (has_comments env country = false /\ comment_section env country = [])
  \/ (has_comments env country = true
      /\ exists cs, comment_section env country
                    = [comment_heading; comment_table env cs]).
Proof.
  unfold has_comments, comment_section.
  destruct (commentGet env country) as [cs|]; [|now left].
  destruct (Nat.ltb 0 (List.length cs)); [right|left]; eauto.
Qed.

Lemma base_blocks_cases env datetime_ country v :
  exists info status,
    base_blocks env datetime_ country v
    = base_content datetime_ info status v
    /\ is_table info = has_statistics env country
    /\ is_table status = has_statistics env country
    /\ page_break_rule info = false
    /\ page_break_rule status = false
    /\ (forall label, In label (block_styles info) ->
          label = "tableBody" \/ label = "tableHeader")
    /\ (forall label, In label (block_styles status) ->
          label = "tableBody" \/ label = "tableHeader").
Proof.
  unfold base_blocks, tables_for, has_statistics.
  destruct (httpGet env (resolve_url env country)) as [r|];
    do 2 eexists; (split; [reflexivity|]); simpl; repeat split;
    intros label H; repeat (destruct H as [<-|H]; auto); contradiction.
Qed.

(** X5: the display time handed in by the caller ends up in the second
    entry of the content and nowhere else: two calls that differ only in it
    build documents of the same length that agree at every other position,
    make the same fetches and write to the same file name. *)
Theorem datetime_only_in_time_line :
  forall env dt1 dt2 country v,
    List.length (content (document env dt1 country v))
    = List.length (content (document env dt2 country v))
    /\ nth_error (content (document env dt1 country v)) 1
       = Some (Text ("作成時刻: " ++ dt1) "datetime" None)
    /\ (forall n, n <> 1 ->
          nth_error (content (document env dt1 country v)) n
          = nth_error (content (document env dt2 country v)) n)
    /\ trace (assemble env dt1 country v) = trace (assemble env dt2 country v)
    /\ snd (result (assemble env dt1 country v))
       = snd (result (assemble env dt2 country v)).
Proof.
  intros env dt1 dt2 country v.
  rewrite !content_split, !assemble_trace, !assemble_result.
  unfold base_blocks, base_content.
  repeat split.
  intros n Hn. destruct n as [|[|n]]; [reflexivity|contradiction|reflexivity].
Qed.

Lemma datetime_only_in_time_line_witness :
  nth_error (content (document Sample.ok "2021/03/05 14:07" "Japan" Sample.image)) 8
  = nth_error (content (document Sample.ok "2022/01/01 00:00" "Japan" Sample.image)) 8.
Proof.
  refine (proj1 (proj2 (proj2 (datetime_only_in_time_line
                                 Sample.ok "2021/03/05 14:07" "2022/01/01 00:00"
                                 "Japan" Sample.image))) 8 _).
  discriminate.
Defined.

(** X6: the image handle is copied, unchanged and unchecked, into the
    seventh entry, with the fixed size 450 by 300, and appears nowhere else:
    two calls that differ only in it build documents that agree at every
    other position and make the same fetches. *)
Theorem image_only_in_chart_block :
  forall env datetime_ country v1 v2,
    nth_error (content (document env datetime_ country v1)) 6
    = Some (Image v1 450 300)
    /\ (forall n, n <> 6 ->
          nth_error (content (document env datetime_ country v1)) n
          = nth_error (content (document env datetime_ country v2)) n)
    /\ trace (assemble env datetime_ country v1)
       = trace (assemble env datetime_ country v2).
Proof.
  intros env datetime_ country v1 v2.
  rewrite !content_split, !assemble_trace.
  unfold base_blocks, base_content.
  repeat split.
  intros n Hn.
  destruct n as [|[|[|[|[|[|[|n]]]]]]]; try reflexivity. contradiction.
Qed.

Lemma image_only_in_chart_block_witness :
  nth_error (content (document Sample.ok "2021/03/05 14:07" "Japan" Sample.image)) 4
  = nth_error (content (document Sample.ok "2021/03/05 14:07" "Japan" Js.Null)) 4.
Proof.
  refine (proj1 (proj2 (image_only_in_chart_block
                          Sample.ok "2021/03/05 14:07" "Japan" Sample.image Js.Null))
            4 _).
  discriminate.
Defined.

(** X7: the identity table and the status table stand or fall together:
    when the fetch answered with a record, the third and the fifth entry are
    the identity table and the status table of that record; when it did not,
    both are the empty string they were initialised with.  The content has
    seven entries, or nine when there are comments, and holds two tables for
    the statistics plus one for the comments. *)
Theorem tables_both_or_neither :
  forall env datetime_ country v,
    match httpGet env (resolve_url env country) with
    | Some r =>
        nth_error (content (document env datetime_ country v)) 2
        = Some (info_table (translated_name env country)
                  (numeric_cell (population r)))
        /\ nth_error (content (document env datetime_ country v)) 4
           = Some (status_table r)
    | None =>
        nth_error (content (document env datetime_ country v)) 2
        = Some (Bare "")
        /\ nth_error (content (document env datetime_ country v)) 4
           = Some (Bare "")
    end
    /\ (exists info status,
          nth_error (content (document env datetime_ country v)) 2 = Some info
          /\ nth_error (content (document env datetime_ country v)) 4 = Some status
          /\ is_table info = has_statistics env country
          /\ is_table status = has_statistics env country)
    /\ List.length (content (document env datetime_ country v))
       = 7 + (if has_comments env country then 2 else 0)
    /\ List.length (filter is_table (content (document env datetime_ country v)))
       = (if has_statistics env country then 2 else 0)
         + (if has_comments env country then 1 else 0).
Proof.
  intros env datetime_ country v. split.
  - destruct (httpGet env (resolve_url env country)) as [r|] eqn:Hfetch.
    + pose proof (base_blocks_with_statistics env datetime_ country v r Hfetch)
        as Hbase.
      split; apply nth_error_base; rewrite Hbase; reflexivity.
    + assert (Hbase : base_blocks env datetime_ country v
                      = base_content datetime_ (Bare "") (Bare "") v).
      { unfold base_blocks. now rewrite (tables_for_no_data env country Hfetch). }
      split; apply nth_error_base; rewrite Hbase; reflexivity.
  - rewrite content_split.
    destruct (base_blocks_cases env datetime_ country v)
      as [info [status [-> [Hi [Hs _]]]]].
    split.
    + exists info, status. repeat split; assumption.
    + unfold base_content. rewrite filter_app. cbn [filter is_table negb].
      rewrite Hi, Hs.
      destruct (comment_section_cases env country) as [[-> ->]|[-> [cs ->]]];
        destruct (has_statistics env country); split; reflexivity.
Qed.

(** X8: a document forces at most one page break: the entries the
    page-break rule answers [true] on are the comment heading alone when
    there are comments, and none otherwise; the heading then is the eighth
    entry, right after the chart image. *)
Theorem at_most_one_forced_page_break :
  forall env datetime_ country v,
    filter (pageBreakBefore (document env datetime_ country v))
      (content (document env datetime_ country v))
    = (if has_comments env country then [comment_heading] else [])
    /\ nth_error (content (document env datetime_ country v)) 7
       = (if has_comments env country then Some comment_heading else None).
Proof.
  intros env datetime_ country v. rewrite rule_of_document, content_split.
  destruct (base_blocks_cases env datetime_ country v)
    as [info [status [-> [_ [_ [Hinfo [Hstatus _]]]]]]].
  unfold base_content. rewrite filter_app. cbn [filter].
  rewrite Hinfo, Hstatus.
  destruct (comment_section_cases env country) as [[-> ->]|[-> [cs ->]]];
    split; reflexivity.
Qed.

(** ** Styles and fonts *)

Lemma styles_of_document env datetime_ country v :
  styles (document env datetime_ country v) = style_table
  /\ defaultStyle (document env datetime_ country v) = default_style.
Proof.
  rewrite document_eq. unfold append_comments.
  destruct (commentGet env country) as [cs|]; [|split; reflexivity].
  destruct (Nat.ltb 0 (List.length cs)); split; reflexivity.
Qed.

Lemma comment_rows_have_no_style env cs :
  flat_map (flat_map cell_styles) (map (comment_row env) cs) = [].
Proof. induction cs as [|c cs IH]; simpl; [reflexivity|exact IH]. Qed.

(** X9: no document refers to a style or a font that is not there: every
    style label on an entry or on a table cell, for any statistics record and
    any list of comments, is a key of the document's style table, and every
    font named by a style or by the default style is registered in [fonts]. *)
Theorem styles_and_fonts_are_defined :
  forall env datetime_ country v,
    (forall b label,
        In b (content (document env datetime_ country v)) ->
        In label (block_styles b) ->
        In label (map fst (styles (document env datetime_ country v))))
    /\ (forall label st f,
          In (label, st) (styles (document env datetime_ country v)) ->
          font st = Some f ->
          In f (map fst fonts))
    /\ (forall f,
          font (defaultStyle (document env datetime_ country v)) = Some f ->
          In f (map fst fonts)).
Proof.
  intros env datetime_ country v.
  destruct (styles_of_document env datetime_ country v) as [-> ->].
  split; [|split].
  - intros b label Hb Hlabel. rewrite content_split in Hb.
    apply in_app_or in Hb. destruct Hb as [Hb|Hb].
    + destruct (base_blocks_cases env datetime_ country v)
        as [info [status [Hbase [_ [_ [_ [_ [Hi Hs]]]]]]]].
      rewrite Hbase in Hb. unfold base_content in Hb. simpl in Hb.
      destruct Hb as [<-|[<-|[<-|[<-|[<-|[<-|[<-|[]]]]]]]].
      * simpl in Hlabel. destruct Hlabel as [<-|[]]. simpl. tauto.
      * simpl in Hlabel. destruct Hlabel as [<-|[]]. simpl. tauto.
      * destruct (Hi label Hlabel) as [-> | ->]; simpl; tauto.
      * simpl in Hlabel. destruct Hlabel as [<-|[]]. simpl. tauto.
      * destruct (Hs label Hlabel) as [-> | ->]; simpl; tauto.
      * simpl in Hlabel. destruct Hlabel as [<-|[]]. simpl. tauto.
      * simpl in Hlabel. contradiction.
    + destruct (comment_section_cases env country) as [[_ Hc]|[_ [cs Hc]]];
        rewrite Hc in Hb; [contradiction|].
      destruct Hb as [<-|[<-|[]]].
      * simpl in Hlabel. destruct Hlabel as [<-|[]]. simpl. tauto.
      * unfold comment_table in Hlabel. cbn [block_styles flat_map] in Hlabel.
        rewrite comment_rows_have_no_style in Hlabel. simpl in Hlabel.
        destruct Hlabel as [<-|[<-|[<-|[]]]]; simpl; tauto.
  - intros label st f Hin Hfont. simpl in Hin.
    destruct Hin as [H|[H|[H|[H|[H|[]]]]]]; injection H as <- <-;
      simpl in Hfont; try discriminate Hfont; injection Hfont as <-;
      simpl; tauto.
  - intros f Hfont. simpl in Hfont. injection Hfont as <-. simpl. tauto.
Qed.

Lemma styles_and_fonts_are_defined_witness :
  In "tableHeader"
     (map fst (styles (document Sample.ok "2021/03/05 14:07" "Japan" Sample.image))).
Proof.
  refine (proj1 (styles_and_fonts_are_defined
                   Sample.ok "2021/03/05 14:07" "Japan" Sample.image)
            (comment_table Sample.ok Sample.notes) "tableHeader" _ _).
  - vm_compute. tauto.
  - vm_compute. tauto.
Defined.

(** ** Addresses and file names *)

Lemma append_cancel_l (a x y : string) : a ++ x = a ++ y -> x = y.
Proof.
  induction a as [|ch a IH]; simpl; intros H; [exact H|].
  injection H as H. exact (IH H).
Qed.

Lemma length_append (a b : string) :
  String.length (a ++ b) = String.length a + String.length b.
Proof. induction a as [|ch a IH]; simpl; [reflexivity|now rewrite IH]. Qed.

Lemma append_cancel_r (x y s : string) : x ++ s = y ++ s -> x = y.
Proof.
  revert y. induction x as [|ch x IH]; intros [|ch' y] H; simpl in H.
  - reflexivity.
  - apply (f_equal String.length) in H. simpl in H. rewrite length_append in H. lia.
  - apply (f_equal String.length) in H. simpl in H. rewrite length_append in H. lia.
  - injection H as -> H. now rewrite (IH y H).
Qed.

(** X10: different targets are fetched from different addresses, whatever
    [BASE_URL] is; in particular no country identifier leads to the address
    of the aggregate ["all"]. *)
Theorem statistics_url_is_injective :
  forall env c1 c2,
    c1 <> c2 ->
    resolve_url env c1 <> resolve_url env c2.
Proof.
  intros env c1 c2 Hne Heq. apply Hne. unfold resolve_url in Heq.
  destruct (String.eqb_spec c1 "all") as [->|H1];
    destruct (String.eqb_spec c2 "all") as [->|H2].
  - reflexivity.
  - apply append_cancel_l in Heq. discriminate Heq.
  - apply append_cancel_l in Heq. discriminate Heq.
  - apply append_cancel_l in Heq. now apply (append_cancel_l "countries/") in Heq.
Qed.

Lemma statistics_url_is_injective_witness :
  resolve_url Sample.ok "all" <> resolve_url Sample.ok "countries/all".
Proof.
  apply (statistics_url_is_injective Sample.ok "all" "countries/all").
  discriminate.
Defined.

Lemma resolved_with_output_file env datetime_ country v p :
  result (pdfGenerateFile env datetime_ country v) = Resolved (Some p) ->
  p = output_file_of env country.
Proof.
  intros H. destruct (Js.loose_eq_empty v) eqn:Hguard.
  - rewrite (guard_short_circuits env datetime_ country v Hguard) in H.
    discriminate H.
  - rewrite (run_result env datetime_ country v Hguard) in H.
    destruct (raised_in_try _ _ _); [destruct (global_output env)|];
      try discriminate H; now injection H as <-.
Qed.

(** X11: two reports for different targets never share a file, even when
    the clock gives both the same timestamp: in one environment, runs for
    different targets that resolve with a file name resolve with different
    names. *)
Theorem different_targets_different_files :
  forall env dt1 dt2 c1 c2 v1 v2 p1 p2,
    c1 <> c2 ->
    result (pdfGenerateFile env dt1 c1 v1) = Resolved (Some p1) ->
    result (pdfGenerateFile env dt2 c2 v2) = Resolved (Some p2) ->
    p1 <> p2.
Proof.
  intros env dt1 dt2 c1 c2 v1 v2 p1 p2 Hne H1 H2 Heq.
  apply resolved_with_output_file in H1, H2. subst p1 p2.
  unfold output_file_of, output_path in Heq.
  apply append_cancel_l in Heq.
  apply (append_cancel_l "/Report-") in Heq.
  apply append_cancel_r in Heq. contradiction.
Qed.

Lemma different_targets_different_files_witness :
  "./output/Report-all-20210305140700.pdf"
  <> "./output/Report-Japan-20210305140700.pdf".
Proof.
  apply (different_targets_different_files Sample.ok
           "2021/03/05 14:07" "2021/03/05 14:07" "all" "Japan"
           Sample.image Sample.image).
  - discriminate.
  - reflexivity.
  - reflexivity.
Defined.
